(** * Dzus panel template drawing

    A shallow embedding of [make_panel.py], the script that draws the
    backing plate and the fascia of a flight simulator panel into the
    modelspace of a DXF drawing.

    Numbers.  The script computes with Python floats.  They are modelled
    as exact rationals in canonical form ([Qc]), so that equal lengths are
    equal terms; rounding of the products with 25.4 is not modelled.
    Integers of the script (angles, fastener positions, the height in Dzus
    units) are [Z], injected into [Qc] where Python promotes them.

    Effects.  The only state of the script is the modelspace [msp], to
    which every [add_line], [add_arc] and [add_circle] appends one entity,
    and the two variables [last_x], [last_y] of the fascia loops.  Both are
    passed explicitly. *)

From Stdlib Require Import ZArith QArith Qcanon List Permutation Bool Lia.
Import ListNotations.

Open Scope Z_scope.
Open Scope Qc_scope.

(** ** Numbers *)

Definition Z2Qc (z : Z) : Qc := Q2Qc (inject_Z z).
Coercion Z2Qc : Z >-> Qc.

(** [def intomm(inches): return inches * 25.4] *)
Definition intomm (inches : Qc) : Qc := inches * Q2Qc 25.4.

(** ** The drawing *)

Definition point : Type := (Qc * Qc)%type.

(** The layers created by [dwg.layers.new]. *)
Inductive layer : Set :=
| plate
| plate_construction
| fascia
| fascia_construction
| decal
| decal_construction.

Definition layers : list layer :=
  [plate; plate_construction; fascia; fascia_construction;
   decal; decal_construction].

(** The three kinds of entity the script adds.  Angles are in degrees; an
    arc runs counter-clockwise from its start angle to its end angle. *)
Inductive primitive : Type :=
| Line (start end_ : point)
| Arc (center : point) (radius : Qc) (start_angle end_angle : Z)
| Circle (center : point) (radius : Qc).

Record entity : Type := Entity { geometry : primitive; dxf_layer : layer }.

(** The modelspace, in the order the entities were added. *)
Definition modelspace : Type := list entity.

Definition add_line (msp : modelspace) (start end_ : point) (l : layer)
  : modelspace :=
  msp ++ [Entity (Line start end_) l].

Definition add_arc (msp : modelspace) (center : point) (radius : Qc)
    (start_angle end_angle : Z) (l : layer) : modelspace :=
  msp ++ [Entity (Arc center radius start_angle end_angle) l].

Definition add_circle (msp : modelspace) (center : point) (radius : Qc)
    (l : layer) : modelspace :=
  msp ++ [Entity (Circle center radius) l].

(** Truth value of a Python list: [if left_mount:]. *)
Definition truthy {A : Type} (l : list A) : bool :=
  match l with
  | [] => false
  | _ :: _ => true
  end.

(** ** The script *)

Section Script.

(** The parameters at the top of the script. *)
Variable w_inches : Qc.
Variable h_units : Z.
Variable left_mount : list Z.
Variable right_mount : list Z.

(** Outer dimensions of plate (mm). *)
Definition top : Qc := intomm (h_units * (3/8)).
Definition bottom : Qc := 0.
Definition left : Qc := 0.
Definition right : Qc := intomm w_inches.

(** *** PLATE *)

Definition plate_outline (msp : modelspace) : modelspace :=
  let msp := add_line msp (left, bottom) (right, bottom) plate in
  let msp := add_line msp (right, bottom) (right, top) plate in
  let msp := add_line msp (right, top) (left, top) plate in
  add_line msp (left, top) (left, bottom) plate.

(** Body of [for pos in left_mount] (plate). *)
Definition plate_left_hole (msp : modelspace) (pos : Z) : modelspace :=
  let msp :=
    add_line msp (left - 10, intomm (pos * (3/8) + (3/16)))
                 (right / 2, intomm (pos * (3/8) + (3/16)))
                 plate_construction in
  add_circle msp (intomm (3/16), intomm (pos * (3/8) + (3/16))) 2 plate.

(** Body of [for pos in right_mount] (plate). *)
Definition plate_right_hole (msp : modelspace) (pos : Z) : modelspace :=
  let msp :=
    add_line msp (right / 2, intomm (pos * (3/8) + (3/16)))
                 (right + 10, intomm (pos * (3/8) + (3/16)))
                 plate_construction in
  add_circle msp (right - intomm (3/16), intomm (pos * (3/8) + (3/16)))
             2 plate.

Definition plate_left_holes (msp : modelspace) : modelspace :=
  let msp :=
    if truthy left_mount
    then add_line msp (intomm (3/16), bottom - 10) (intomm (3/16), top + 10)
                  plate_construction
    else msp in
  fold_left plate_left_hole left_mount msp.

Definition plate_right_holes (msp : modelspace) : modelspace :=
  let msp :=
    if truthy right_mount
    then add_line msp (right - intomm (3/16), bottom - 10)
                      (right - intomm (3/16), top + 10)
                  plate_construction
    else msp in
  fold_left plate_right_hole right_mount msp.

(** *** FASCIA *)

(** Outline of fascia: the four corners and the bottom and top lines. *)
Definition fascia_outline (msp : modelspace) : modelspace :=
  (* Bottom left corner *)
  let msp :=
    add_arc msp (intomm (2/32), intomm (2/32)) (intomm (1/32)) 180 270
            fascia in
  (* Bottom line *)
  let msp :=
    add_line msp (left + intomm (2/32), bottom + intomm (1/32))
                 (right - intomm (2/32), bottom + intomm (1/32)) fascia in
  (* Bottom right corner *)
  let msp :=
    add_arc msp (right - intomm (2/32), intomm (2/32)) (intomm (1/32))
            270 0 fascia in
  (* Top left corner *)
  let msp :=
    add_arc msp (intomm (2/32), top - intomm (2/32)) (intomm (1/32))
            90 180 fascia in
  (* Top line *)
  let msp :=
    add_line msp (left + intomm (2/32), top - intomm (1/32))
                 (right - intomm (2/32), top - intomm (1/32)) fascia in
  (* Top right corner *)
  add_arc msp (right - intomm (2/32), top - intomm (2/32)) (intomm (1/32))
          0 90 fascia.

(** Horizontal and vertical construction lines across centre of fascia. *)
Definition fascia_centre_lines (msp : modelspace) : modelspace :=
  let msp :=
    add_line msp (right / 2, bottom - 10) (right / 2, top + 10)
             fascia_construction in
  add_line msp (left - 10, top / 2) (right + 10, top / 2)
           fascia_construction.

(** The variables a rebate loop reads and writes: the modelspace and the
    point reached so far on the side being drawn. *)
Definition pen : Type := (modelspace * Qc * Qc)%type.

(** Body of [for pos in left_mount] (fascia).  The assignment to
    [last_x] is commented out in the script; [last_y] is updated. *)
Definition left_rebate (st : pen) (pos : Z) : pen :=
  let '(msp, last_x, last_y) := st in
  let centre_x := intomm (3/16) in
  let centre_y := intomm (pos * (3/8) + (3/16)) in
  let msp :=
    add_line msp (left - 10, centre_y) (right / 2, centre_y)
             fascia_construction in
  let msp :=
    add_line msp (last_x, last_y)
             (left + intomm (1/32),
              centre_y - intomm ((3/16) + (1/16) + (1/32)))
             fascia in
  let msp :=
    add_arc msp (left + intomm (2/32),
                 centre_y - intomm ((3/16) + (1/16) + (1/32)))
            (intomm (1/32)) 90 180 fascia in
  let msp :=
    add_line msp (left + intomm (2/32), centre_y - intomm ((3/16) + (1/16)))
                 (left + intomm (3/16), centre_y - intomm ((3/16) + (1/16)))
             fascia in
  let msp :=
    add_arc msp (centre_x, centre_y) (intomm ((3/16) + (1/16))) 270 90
            fascia in
  let msp :=
    add_line msp (left + intomm (2/32), centre_y + intomm ((3/16) + (1/16)))
                 (left + intomm (3/16), centre_y + intomm ((3/16) + (1/16)))
             fascia in
  let msp :=
    add_arc msp (left + intomm (2/32),
                 centre_y + intomm ((3/16) + (1/16) + (1/32)))
            (intomm (1/32)) 180 270 fascia in
  let last_y := centre_y + intomm ((3/16) + (1/16) + (1/32)) in
  (msp, last_x, last_y).

(** Left side, start at the bottom. *)
Definition fascia_left_side (msp : modelspace) : modelspace :=
  let last_x := left + intomm (1/32) in
  let last_y := intomm (2/32) in
  let msp :=
    if truthy left_mount
    then add_line msp (intomm (3/16), bottom - 10) (intomm (3/16), top + 10)
                  fascia_construction
    else msp in
  let '(msp, last_x, last_y) :=
    fold_left left_rebate left_mount (msp, last_x, last_y) in
  add_line msp (last_x, last_y) (intomm (1/32), top - intomm (2/32)) fascia.

(** Body of [for pos in right_mount] (fascia). *)
Definition right_rebate (st : pen) (pos : Z) : pen :=
  let '(msp, last_x, last_y) := st in
  let centre_x := right - intomm (3/16) in
  let centre_y := intomm (pos * (3/8) + (3/16)) in
  let msp :=
    add_line msp (right / 2, centre_y) (right + 10, centre_y)
             fascia_construction in
  let msp :=
    add_line msp (last_x, last_y)
             (right - intomm (1/32),
              centre_y - intomm ((3/16) + (1/16) + (1/32)))
             fascia in
  let msp :=
    add_arc msp (right - intomm (2/32),
                 centre_y - intomm ((3/16) + (1/16) + (1/32)))
            (intomm (1/32)) 0 90 fascia in
  let msp :=
    add_line msp
             (right - intomm (2/32), centre_y - intomm ((3/16) + (1/16)))
             (right - intomm (3/16), centre_y - intomm ((3/16) + (1/16)))
             fascia in
  let msp :=
    add_arc msp (centre_x, centre_y) (intomm ((3/16) + (1/16))) 90 270
            fascia in
  let msp :=
    add_line msp
             (right - intomm (2/32), centre_y + intomm ((3/16) + (1/16)))
             (right - intomm (3/16), centre_y + intomm ((3/16) + (1/16)))
             fascia in
  let msp :=
    add_arc msp (right - intomm (2/32),
                 centre_y + intomm ((3/16) + (1/16) + (1/32)))
            (intomm (1/32)) 270 0 fascia in
  let last_y := centre_y + intomm ((3/16) + (1/16) + (1/32)) in
  (msp, last_x, last_y).

(** Right side, start at the bottom. *)
Definition fascia_right_side (msp : modelspace) : modelspace :=
  let last_x := right - intomm (1/32) in
  let last_y := intomm (2/32) in
  let msp :=
    if truthy right_mount
    then add_line msp (right - intomm (3/16), bottom - 10)
                      (right - intomm (3/16), top + 10)
                  fascia_construction
    else msp in
  let '(msp, last_x, last_y) :=
    fold_left right_rebate right_mount (msp, last_x, last_y) in
  add_line msp (last_x, last_y) (right - intomm (1/32), top - intomm (2/32))
           fascia.

(** Centreline for panel name. *)
Definition panel_name_centreline (msp : modelspace) : modelspace :=
  add_line msp (left - 10, top - intomm (13/64))
               (right + 10, top - intomm (13/64)) decal_construction.

(** The statements of the script, top to bottom, on a modelspace. *)
Definition script (msp : modelspace) : modelspace :=
  let msp := plate_outline msp in
  let msp := plate_left_holes msp in
  let msp := plate_right_holes msp in
  let msp := fascia_outline msp in
  let msp := fascia_centre_lines msp in
  let msp := fascia_left_side msp in
  let msp := fascia_right_side msp in
  panel_name_centreline msp.

(** One run: [dwg = ezdxf.new('R2010')] starts from an empty modelspace,
    and the script reaches [dwg.saveas] with the modelspace below. *)
Definition make_panel : modelspace := script [].

End Script.

(** The parameter values written in the script. *)
Definition default_w_inches : Qc := Q2Qc 5.75.
Definition default_h_units : Z := 9.
Definition default_left_mount : list Z := [1; 7]%Z.
Definition default_right_mount : list Z := [1; 7]%Z.

(** ** Outcome of a run

    The script contains no [raise] and no test on its parameters: every
    statement is executed, for every value of the parameters, and the run
    ends with the modelspace being saved.  The error names are those of
    the specification. *)

Inductive error : Set :=
| InvalidDimension
| InvalidFastenerPosition
| DegenerateRebate.

Inductive outcome : Type :=
| Saved (msp : modelspace)
| Raised (e : error).

Definition run (w_inches : Qc) (h_units : Z) (left_mount right_mount : list Z)
  : outcome :=
  Saved (make_panel w_inches h_units left_mount right_mount).

(** ** Reading a modelspace *)

Definition layer_eqb (a b : layer) : bool :=
  match a, b with
  | plate, plate
  | plate_construction, plate_construction
  | fascia, fascia
  | fascia_construction, fascia_construction
  | decal, decal
  | decal_construction, decal_construction => true
  | _, _ => false
  end.

Definition is_construction (l : layer) : bool :=
  match l with
  | plate_construction | fascia_construction | decal_construction => true
  | _ => false
  end.

Definition is_line (p : primitive) : bool :=
  match p with Line _ _ => true | _ => false end.

Definition is_arc (p : primitive) : bool :=
  match p with Arc _ _ _ _ => true | _ => false end.

Definition is_circle (p : primitive) : bool :=
  match p with Circle _ _ => true | _ => false end.

(** The primitives on one layer, in the order they were added. *)
Definition on_layer (l : layer) (msp : modelspace) : list primitive :=
  map geometry (filter (fun e => layer_eqb (dxf_layer e) l) msp).

(** The open primitives (lines and arcs) of a layer: its boundary. *)
Definition boundary (l : layer) (msp : modelspace) : list primitive :=
  filter (fun p => negb (is_circle p)) (on_layer l msp).

Definition circles (l : layer) (msp : modelspace) : list primitive :=
  filter is_circle (on_layer l msp).

Definition construction_lines (msp : modelspace) : list entity :=
  filter (fun e => is_construction (dxf_layer e)) msp.

(** ** End points and contours *)

Definition Qc_leb (a b : Qc) : bool := Qle_bool a b.

Definition Qc_abs (a : Qc) : Qc := if Qc_leb 0 a then a else - a.
















(** ** Mirror image under x -> width - x *)

Definition mirror_point (width : Qc) (p : point) : point :=
  (width - fst p, snd p).

Definition mirror_angle (a : Z) : Z := ((180 - a) mod 360)%Z.

(** A counter-clockwise arc is mirrored into a clockwise one, that is the
    counter-clockwise arc between the mirrored angles taken in the other
    order. *)
Definition mirror (width : Qc) (p : primitive) : primitive :=
  match p with
  | Line a b => Line (mirror_point width a) (mirror_point width b)
  | Arc c r a1 a2 =>
      Arc (mirror_point width c) r (mirror_angle a2) (mirror_angle a1)
  | Circle c r => Circle (mirror_point width c) r
  end.

Definition point_eqb (p q : point) : bool :=
  Qc_eq_bool (fst p) (fst q) && Qc_eq_bool (snd p) (snd q).

(** Two primitives that cover the same set of points: a segment does not
    depend on the order of its end points, an arc's angles count modulo
    360. *)
Definition same_points (p q : primitive) : bool :=
  match p, q with
  | Line a b, Line c d =>
      (point_eqb a c && point_eqb b d) || (point_eqb a d && point_eqb b c)
  | Arc c r a1 a2, Arc c' r' a1' a2' =>
      point_eqb c c' && Qc_eq_bool r r'
      && (a1 mod 360 =? a1' mod 360)%Z && (a2 mod 360 =? a2' mod 360)%Z
  | Circle c r, Circle c' r' => point_eqb c c' && Qc_eq_bool r r'
  | _, _ => false
  end.

Definition mirrored (width : Qc) (e e' : entity) : bool :=
  layer_eqb (dxf_layer e) (dxf_layer e')
  && same_points (mirror width (geometry e)) (geometry e').

(** ** Fasteners and rebates *)

(** [intomm(pos * (3/8) + (3/16))], the [centre_y] of the fascia loops. *)
Definition fastener_y (pos : Z) : Qc := intomm (pos * (3/8) + (3/16)).

(** The value a rebate loop leaves in [last_y] after position [pos]. *)
Definition rebate_exit_y (pos : Z) : Qc :=
  fastener_y pos + intomm ((3/16) + (1/16) + (1/32)).

Fixpoint last_y_after (last_y : Qc) (l : list Z) : Qc :=
  match l with
  | [] => last_y
  | pos :: tl => last_y_after (rebate_exit_y pos) tl
  end.

(** What a rebate loop adds to the modelspace, one iteration after the
    other, each started where the previous one stopped: [last_x] is never
    assigned and [last_y] is the exit of the previous rebate. *)
Fixpoint rebates (rebate : pen -> Z -> pen) (last_x last_y : Qc) (l : list Z)
  : list entity :=
  match l with
  | [] => []
  | pos :: tl =>
      fst (fst (rebate ([], last_x, last_y) pos))
      ++ rebates rebate last_x (rebate_exit_y pos) tl
  end.



(** The pocket arcs (radius 3/16 in + 1/16 in) of the fascia whose centre has
    abscissa [x]: one per rebate sequence of the side at [x]. *)
Definition pockets (x : Qc) (msp : modelspace) : list primitive :=
  filter (fun p =>
            match p with
            | Arc c r _ _ =>
                Qc_eq_bool (fst c) x && Qc_eq_bool r (intomm ((3/16) + (1/16)))
            | _ => false
            end)
         (on_layer fascia msp).

(** ** The fascia as one loop *)








(** ** The two sides *)

Definition left_corners (w_inches : Qc) (h_units : Z) : list entity :=
  match fascia_outline w_inches h_units [] with
  | [bottom_left; _; _; top_left; _; _] => [bottom_left; top_left]
  | _ => []
  end.

Definition right_corners (w_inches : Qc) (h_units : Z) : list entity :=
  match fascia_outline w_inches h_units [] with
  | [_; _; bottom_right; _; _; top_right] => [bottom_right; top_right]
  | _ => []
  end.

(** Everything the script draws for one side: its two corners, its plate
    holes and its fascia boundary, with their construction lines. *)
Definition left_side (w_inches : Qc) (h_units : Z) (left_mount : list Z)
  : list entity :=
  left_corners w_inches h_units
  ++ plate_left_holes w_inches h_units left_mount []
  ++ fascia_left_side w_inches h_units left_mount [].

Definition right_side (w_inches : Qc) (h_units : Z) (right_mount : list Z)
  : list entity :=
  right_corners w_inches h_units
  ++ plate_right_holes w_inches h_units right_mount []
  ++ fascia_right_side w_inches h_units right_mount [].

Fixpoint all2 {A B : Type} (f : A -> B -> bool) (l : list A) (l' : list B)
  : bool :=
  match l, l' with
  | [], [] => true
  | a :: tl, b :: tl' => f a b && all2 f tl tl'
  | _, _ => false
  end.

(** An arc that sweeps a quarter of a circle. *)
Definition quarter (p : primitive) : bool :=
  match p with
  | Arc _ _ a1 a2 => ((a2 - a1) mod 360 =? 90)%Z
  | _ => false
  end.

(** A plate hole whose centre is at height [y], up to [tol]. *)
Definition hole_near (y tol : Qc) (p : primitive) : bool :=
  match p with
  | Circle c _ => Qc_leb (Qc_abs (snd c - y)) tol
  | _ => false
  end.

(** The shapes of construction lines: over the full height or the full
    width of the plate and 10 mm beyond it at both ends, or from the
    midline of the panel to 10 mm outside the edge next to a fastener. *)
Inductive construction_shape (w_inches : Qc) (h_units : Z)
    (left_mount right_mount : list Z) : primitive -> Prop :=
| full_height (x : Qc) :
    construction_shape w_inches h_units left_mount right_mount
      (Line (x, Z2Qc (-10)) (x, top h_units + 10))
| full_width (y : Qc) :
    construction_shape w_inches h_units left_mount right_mount
      (Line (Z2Qc (-10), y) (right w_inches + 10, y))
| left_fastener (pos : Z) :
    In pos left_mount ->
    construction_shape w_inches h_units left_mount right_mount
      (Line (Z2Qc (-10), fastener_y pos) (right w_inches / 2, fastener_y pos))
| right_fastener (pos : Z) :
    In pos right_mount ->
    construction_shape w_inches h_units left_mount right_mount
      (Line (right w_inches / 2, fastener_y pos)
            (right w_inches + 10, fastener_y pos)).

(** * Properties *)

(** ** Arithmetic of lengths *)

(** Equalities between lengths are equalities of rationals: both sides are
    brought back to [Q], where [field] decides them. *)
Ltac qc_arith :=
  apply Qc_is_canon;
  unfold top, bottom, left, right, rebate_exit_y, fastener_y, intomm,
    Qcminus, Qcdiv, Qcplus, Qcmult, Qcopp, Qcinv, Z2Qc;
  cbn [this Q2Qc];
  repeat rewrite Qred_correct;
  field.

Lemma Qc_eq_bool_refl (a : Qc) : Qc_eq_bool a a = true.
Proof.
  unfold Qc_eq_bool. destruct (Qc_eq_dec a a) as [_ | n]; [reflexivity | ].
  exfalso. apply n. reflexivity.
Qed.

Lemma point_eqb_refl (p : point) : point_eqb p p = true.
Proof. unfold point_eqb. now rewrite !Qc_eq_bool_refl. Qed.



Lemma left_minus_10 : left - 10 = Z2Qc (-10).
Proof. qc_arith. Qed.

Lemma bottom_minus_10 : bottom - 10 = Z2Qc (-10).
Proof. qc_arith. Qed.

(** ** What the script adds to a modelspace *)

Lemma fold_left_adds {A : Type} (f : modelspace -> A -> modelspace) :
  (forall msp a, f msp a = msp ++ f [] a) ->
  forall l msp, fold_left f l msp = msp ++ flat_map (f []) l.
Proof.
  intros Hf l. induction l as [ | a tl IH]; intros msp; simpl.
  - now rewrite app_nil_r.
  - rewrite IH, (Hf msp a), <- app_assoc. reflexivity.
Qed.

Lemma fold_left_rebates (rebate : pen -> Z -> pen) :
  (forall msp x y pos,
      rebate (msp, x, y) pos
      = (msp ++ fst (fst (rebate ([], x, y) pos)), x, rebate_exit_y pos)) ->
  forall l msp x y,
    fold_left rebate l (msp, x, y)
    = (msp ++ rebates rebate x y l, x, last_y_after y l).
Proof.
  intros Hr l. induction l as [ | pos tl IH]; intros msp x y; simpl.
  - now rewrite app_nil_r.
  - rewrite (Hr msp x y pos), IH. now rewrite <- app_assoc.
Qed.

Section Adds.

Variable w_inches : Qc.
Variable h_units : Z.
Variable left_mount : list Z.
Variable right_mount : list Z.

Lemma plate_outline_adds msp :
  plate_outline w_inches h_units msp
  = msp ++ plate_outline w_inches h_units [].
Proof.
  unfold plate_outline, add_line. now rewrite <- !app_assoc.
Qed.

Lemma plate_left_hole_adds msp pos :
  plate_left_hole w_inches msp pos = msp ++ plate_left_hole w_inches [] pos.
Proof.
  unfold plate_left_hole, add_line, add_circle. now rewrite <- !app_assoc.
Qed.

Lemma plate_right_hole_adds msp pos :
  plate_right_hole w_inches msp pos
  = msp ++ plate_right_hole w_inches [] pos.
Proof.
  unfold plate_right_hole, add_line, add_circle. now rewrite <- !app_assoc.
Qed.

Lemma plate_left_holes_adds msp :
  plate_left_holes w_inches h_units left_mount msp
  = msp ++ plate_left_holes w_inches h_units left_mount [].
Proof.
  unfold plate_left_holes.
  rewrite !(fold_left_adds _ (plate_left_hole_adds)).
  destruct (truthy left_mount); unfold add_line;
    now rewrite <- ?app_assoc.
Qed.

Lemma plate_right_holes_adds msp :
  plate_right_holes w_inches h_units right_mount msp
  = msp ++ plate_right_holes w_inches h_units right_mount [].
Proof.
  unfold plate_right_holes.
  rewrite !(fold_left_adds _ (plate_right_hole_adds)).
  destruct (truthy right_mount); unfold add_line;
    now rewrite <- ?app_assoc.
Qed.

Lemma fascia_outline_adds msp :
  fascia_outline w_inches h_units msp
  = msp ++ fascia_outline w_inches h_units [].
Proof.
  unfold fascia_outline, add_line, add_arc. now rewrite <- !app_assoc.
Qed.

Lemma fascia_centre_lines_adds msp :
  fascia_centre_lines w_inches h_units msp
  = msp ++ fascia_centre_lines w_inches h_units [].
Proof.
  unfold fascia_centre_lines, add_line. now rewrite <- !app_assoc.
Qed.

Lemma left_rebate_adds msp x y pos :
  left_rebate w_inches (msp, x, y) pos
  = (msp ++ fst (fst (left_rebate w_inches ([], x, y) pos)), x,
     rebate_exit_y pos).
Proof.
  unfold left_rebate, add_line, add_arc. cbn [fst snd].
  now rewrite <- !app_assoc.
Qed.

Lemma right_rebate_adds msp x y pos :
  right_rebate w_inches (msp, x, y) pos
  = (msp ++ fst (fst (right_rebate w_inches ([], x, y) pos)), x,
     rebate_exit_y pos).
Proof.
  unfold right_rebate, add_line, add_arc. cbn [fst snd].
  now rewrite <- !app_assoc.
Qed.

(** The left side of the fascia: the vertical construction line when
    there are fasteners, the rebates, and the closing line. *)
Lemma fascia_left_side_draws msp :
  fascia_left_side w_inches h_units left_mount msp
  = msp
    ++ (if truthy left_mount
        then [Entity (Line (intomm (3/16), bottom - 10)
                           (intomm (3/16), top h_units + 10))
                     fascia_construction]
        else [])
    ++ rebates (left_rebate w_inches) (left + intomm (1/32))
               (intomm (2/32)) left_mount
    ++ [Entity (Line (left + intomm (1/32),
                      last_y_after (intomm (2/32)) left_mount)
                     (intomm (1/32), top h_units - intomm (2/32)))
               fascia].
Proof.
  unfold fascia_left_side.
  rewrite (fold_left_rebates _ left_rebate_adds).
  destruct (truthy left_mount); unfold add_line;
    rewrite <- ?app_assoc; try rewrite app_nil_r; reflexivity.
Qed.

Lemma fascia_right_side_draws msp :
  fascia_right_side w_inches h_units right_mount msp
  = msp
    ++ (if truthy right_mount
        then [Entity (Line (right w_inches - intomm (3/16), bottom - 10)
                           (right w_inches - intomm (3/16),
                            top h_units + 10))
                     fascia_construction]
        else [])
    ++ rebates (right_rebate w_inches) (right w_inches - intomm (1/32))
               (intomm (2/32)) right_mount
    ++ [Entity (Line (right w_inches - intomm (1/32),
                      last_y_after (intomm (2/32)) right_mount)
                     (right w_inches - intomm (1/32),
                      top h_units - intomm (2/32)))
               fascia].
Proof.
  unfold fascia_right_side.
  rewrite (fold_left_rebates _ right_rebate_adds).
  destruct (truthy right_mount); unfold add_line;
    rewrite <- ?app_assoc; try rewrite app_nil_r; reflexivity.
Qed.

Lemma fascia_left_side_adds msp :
  fascia_left_side w_inches h_units left_mount msp
  = msp ++ fascia_left_side w_inches h_units left_mount [].
Proof. now rewrite (fascia_left_side_draws []), fascia_left_side_draws. Qed.

Lemma fascia_right_side_adds msp :
  fascia_right_side w_inches h_units right_mount msp
  = msp ++ fascia_right_side w_inches h_units right_mount [].
Proof.
  now rewrite (fascia_right_side_draws []), fascia_right_side_draws.
Qed.

Lemma panel_name_centreline_adds msp :
  panel_name_centreline w_inches h_units msp
  = msp ++ panel_name_centreline w_inches h_units [].
Proof. reflexivity. Qed.

(** The modelspace of a run, block by block. *)
Lemma make_panel_blocks :
  make_panel w_inches h_units left_mount right_mount
  = plate_outline w_inches h_units []
    ++ plate_left_holes w_inches h_units left_mount []
    ++ plate_right_holes w_inches h_units right_mount []
    ++ fascia_outline w_inches h_units []
    ++ fascia_centre_lines w_inches h_units []
    ++ fascia_left_side w_inches h_units left_mount []
    ++ fascia_right_side w_inches h_units right_mount []
    ++ panel_name_centreline w_inches h_units [].
Proof.
  unfold make_panel, script.
  rewrite panel_name_centreline_adds, (fascia_right_side_adds (_ _)),
    (fascia_left_side_adds (_ _)), (fascia_centre_lines_adds (_ _)),
    (fascia_outline_adds (_ _)), (plate_right_holes_adds (_ _)),
    (plate_left_holes_adds (_ _)).
  now rewrite <- !app_assoc.
Qed.

Lemma script_adds msp :
  script w_inches h_units left_mount right_mount msp
  = msp ++ make_panel w_inches h_units left_mount right_mount.
Proof.
  rewrite make_panel_blocks. unfold script.
  rewrite panel_name_centreline_adds, (fascia_right_side_adds (_ _)),
    (fascia_left_side_adds (_ _)), (fascia_centre_lines_adds (_ _)),
    (fascia_outline_adds (_ _)), (plate_right_holes_adds (_ _)),
    (plate_left_holes_adds (_ _)), plate_outline_adds.
  now rewrite <- !app_assoc.
Qed.

End Adds.

(** ** Reading the modelspace of a run, layer by layer *)

Lemma on_layer_app lay (m m' : modelspace) :
  on_layer lay (m ++ m') = on_layer lay m ++ on_layer lay m'.
Proof. unfold on_layer. now rewrite filter_app, map_app. Qed.


Lemma flat_map_single {A B : Type} (f : A -> B) (l : list A) :
  flat_map (fun a => [f a]) l = map f l.
Proof. induction l as [ | a tl IH]; simpl; congruence. Qed.

Lemma flat_map_none {A B : Type} (l : list A) :
  flat_map (fun _ => @nil B) l = [].
Proof. induction l as [ | a tl IH]; simpl; congruence. Qed.

Lemma on_layer_flat_map {A : Type} lay (f : A -> list entity)
    (g : A -> list primitive) :
  (forall a, on_layer lay (f a) = g a) ->
  forall l, on_layer lay (flat_map f l) = flat_map g l.
Proof.
  intros Hfg l. induction l as [ | a tl IH]; simpl; [reflexivity | ].
  now rewrite on_layer_app, Hfg, IH.
Qed.

Lemma on_layer_rebates lay (rebate : pen -> Z -> pen)
    (g : Z -> list primitive) :
  (forall x y pos, on_layer lay (fst (fst (rebate ([], x, y) pos))) = g pos) ->
  forall l x y, on_layer lay (rebates rebate x y l) = flat_map g l.
Proof.
  intros Hg l. induction l as [ | pos tl IH]; intros x y; simpl;
    [reflexivity | ].
  now rewrite on_layer_app, Hg, IH.
Qed.

(** Reads the entities written out in the goal. *)
Ltac read_entities :=
  unfold plate_outline, fascia_outline, fascia_centre_lines,
    panel_name_centreline, add_line, add_arc, add_circle, on_layer;
  cbn [app filter map dxf_layer geometry layer_eqb];
  rewrite ?app_nil_r.

Section Reading.

Variable w_inches : Qc.
Variable h_units : Z.
Variable left_mount : list Z.
Variable right_mount : list Z.

Let msp := make_panel w_inches h_units left_mount right_mount.
Let top := top h_units.
Let right := right w_inches.

Lemma plate_left_holes_draws :
  plate_left_holes w_inches h_units left_mount []
  = (if truthy left_mount
     then [Entity (Line (intomm (3/16), bottom - 10)
                        (intomm (3/16), top + 10)) plate_construction]
     else [])
    ++ flat_map (plate_left_hole w_inches []) left_mount.
Proof.
  unfold plate_left_holes.
  rewrite (fold_left_adds _ (plate_left_hole_adds w_inches)).
  now destruct (truthy left_mount).
Qed.

Lemma plate_right_holes_draws :
  plate_right_holes w_inches h_units right_mount []
  = (if truthy right_mount
     then [Entity (Line (right - intomm (3/16), bottom - 10)
                        (right - intomm (3/16), top + 10))
                  plate_construction]
     else [])
    ++ flat_map (plate_right_hole w_inches []) right_mount.
Proof.
  unfold plate_right_holes.
  rewrite (fold_left_adds _ (plate_right_hole_adds w_inches)).
  now destruct (truthy right_mount).
Qed.

(** Layer [plate]: the outline, then one circle per position. *)
Lemma on_layer_plate :
  on_layer plate msp
  = [Line (left, bottom) (right, bottom); Line (right, bottom) (right, top);
     Line (right, top) (left, top); Line (left, top) (left, bottom)]
    ++ map (fun pos => Circle (intomm (3/16), fastener_y pos) 2) left_mount
    ++ map (fun pos => Circle (right - intomm (3/16), fastener_y pos) 2)
           right_mount.
Proof.
  unfold msp. rewrite make_panel_blocks, plate_left_holes_draws,
    plate_right_holes_draws, !fascia_left_side_draws,
    !fascia_right_side_draws, !on_layer_app.
  rewrite (on_layer_flat_map plate (plate_left_hole w_inches [])
             (fun pos => [Circle (intomm (3/16), fastener_y pos) 2]))
    by reflexivity.
  rewrite (on_layer_flat_map plate (plate_right_hole w_inches [])
             (fun pos => [Circle (right - intomm (3/16), fastener_y pos) 2]))
    by reflexivity.
  rewrite !(on_layer_rebates plate _ (fun _ => [])) by reflexivity.
  rewrite !flat_map_single, !flat_map_none.
  destruct (truthy left_mount), (truthy right_mount); now read_entities.
Qed.

(** Layer [plate_construction]: for each side with fasteners the vertical
    line through the holes, then one horizontal line per position. *)
Lemma on_layer_plate_construction :
  on_layer plate_construction msp
  = (if truthy left_mount
     then [Line (intomm (3/16), bottom - 10) (intomm (3/16), top + 10)]
     else [])
    ++ map (fun pos => Line (left - 10, fastener_y pos)
                            (right / 2, fastener_y pos)) left_mount
    ++ (if truthy right_mount
        then [Line (right - intomm (3/16), bottom - 10)
                   (right - intomm (3/16), top + 10)]
        else [])
    ++ map (fun pos => Line (right / 2, fastener_y pos)
                            (right + 10, fastener_y pos)) right_mount.
Proof.
  unfold msp. rewrite make_panel_blocks, plate_left_holes_draws,
    plate_right_holes_draws, !fascia_left_side_draws,
    !fascia_right_side_draws, !on_layer_app.
  rewrite (on_layer_flat_map plate_construction
             (plate_left_hole w_inches [])
             (fun pos => [Line (left - 10, fastener_y pos)
                               (right / 2, fastener_y pos)]))
    by reflexivity.
  rewrite (on_layer_flat_map plate_construction
             (plate_right_hole w_inches [])
             (fun pos => [Line (right / 2, fastener_y pos)
                               (right + 10, fastener_y pos)]))
    by reflexivity.
  rewrite !(on_layer_rebates plate_construction _ (fun _ => []))
    by reflexivity.
  rewrite !flat_map_single, !flat_map_none.
  destruct (truthy left_mount), (truthy right_mount); now read_entities.
Qed.

(** Layer [fascia_construction]: the two centre lines, then for each
    side what [plate_construction] has for it. *)
Lemma on_layer_fascia_construction :
  on_layer fascia_construction msp
  = [Line (right / 2, bottom - 10) (right / 2, top + 10);
     Line (left - 10, top / 2) (right + 10, top / 2)]
    ++ (if truthy left_mount
        then [Line (intomm (3/16), bottom - 10) (intomm (3/16), top + 10)]
        else [])
    ++ map (fun pos => Line (left - 10, fastener_y pos)
                            (right / 2, fastener_y pos)) left_mount
    ++ (if truthy right_mount
        then [Line (right - intomm (3/16), bottom - 10)
                   (right - intomm (3/16), top + 10)]
        else [])
    ++ map (fun pos => Line (right / 2, fastener_y pos)
                            (right + 10, fastener_y pos)) right_mount.
Proof.
  unfold msp. rewrite make_panel_blocks, plate_left_holes_draws,
    plate_right_holes_draws, !fascia_left_side_draws,
    !fascia_right_side_draws, !on_layer_app.
  rewrite !(on_layer_flat_map fascia_construction _ (fun _ => []))
    by reflexivity.
  rewrite (on_layer_rebates fascia_construction (left_rebate w_inches)
             (fun pos => [Line (left - 10, fastener_y pos)
                               (right / 2, fastener_y pos)]))
    by reflexivity.
  rewrite (on_layer_rebates fascia_construction (right_rebate w_inches)
             (fun pos => [Line (right / 2, fastener_y pos)
                               (right + 10, fastener_y pos)]))
    by reflexivity.
  rewrite !flat_map_single, !flat_map_none.
  destruct (truthy left_mount), (truthy right_mount); now read_entities.
Qed.

(** Layers [decal] and [decal_construction]. *)
Lemma on_layer_decal : on_layer decal msp = [].
Proof.
  unfold msp. rewrite make_panel_blocks, plate_left_holes_draws,
    plate_right_holes_draws, !fascia_left_side_draws,
    !fascia_right_side_draws, !on_layer_app.
  rewrite !(on_layer_flat_map decal _ (fun _ => [])) by reflexivity.
  rewrite !(on_layer_rebates decal _ (fun _ => [])) by reflexivity.
  rewrite !flat_map_none.
  destruct (truthy left_mount), (truthy right_mount); now read_entities.
Qed.

Lemma on_layer_decal_construction :
  on_layer decal_construction msp
  = [Line (left - 10, top - intomm (13/64))
          (right + 10, top - intomm (13/64))].
Proof.
  unfold msp. rewrite make_panel_blocks, plate_left_holes_draws,
    plate_right_holes_draws, !fascia_left_side_draws,
    !fascia_right_side_draws, !on_layer_app.
  rewrite !(on_layer_flat_map decal_construction _ (fun _ => []))
    by reflexivity.
  rewrite !(on_layer_rebates decal_construction _ (fun _ => []))
    by reflexivity.
  rewrite !flat_map_none.
  destruct (truthy left_mount), (truthy right_mount); now read_entities.
Qed.

End Reading.

(** ** Entities and layers *)

Lemma layer_eqb_eq (a b : layer) : layer_eqb a b = true <-> a = b.
Proof. destruct a, b; simpl; split; congruence. Qed.

Lemma in_on_layer (p : primitive) lay (m : modelspace) :
  In p (on_layer lay m) <-> In (Entity p lay) m.
Proof.
  unfold on_layer. rewrite in_map_iff. split.
  - intros [[g d] [Hg He]]. apply filter_In in He as [He Hd].
    simpl in *. apply layer_eqb_eq in Hd. now subst.
  - intros He. exists (Entity p lay). split; [reflexivity | ].
    apply filter_In. split; [assumption | ]. now apply layer_eqb_eq.
Qed.

Lemma filter_map_all {A B : Type} (f : A -> B) (keep : B -> bool) l :
  (forall a, keep (f a) = true) -> filter keep (map f l) = map f l.
Proof.
  intros Hk. induction l as [ | a tl IH]; simpl; [reflexivity | ].
  now rewrite Hk, IH.
Qed.




(** ** Paths and loops *)





















(** ** The sides of the fascia *)




Section Sides.

Variable w_inches : Qc.
Variable h_units : Z.
Variable left_mount : list Z.
Variable right_mount : list Z.












End Sides.

(** ** The contours of a run *)


Section Contours.

Variable w_inches : Qc.
Variable h_units : Z.
Variable left_mount : list Z.
Variable right_mount : list Z.

Let msp := make_panel w_inches h_units left_mount right_mount.






End Contours.


(** ** Mirror images *)

Lemma all2_app {A B : Type} (f : A -> B -> bool) l1 l1' l2 l2' :
  all2 f l1 l1' = true -> all2 f l2 l2' = true ->
  all2 f (l1 ++ l2) (l1' ++ l2') = true.
Proof.
  revert l1'. induction l1 as [ | a tl IH]; intros [ | b tl'] H1 H2;
    simpl in *; try discriminate; [assumption | ].
  apply andb_true_iff in H1 as [Hab H1].
  now rewrite Hab, IH.
Qed.

Lemma all2_cons {A B : Type} (f : A -> B -> bool) a b l l' :
  f a b = true -> all2 f l l' = true -> all2 f (a :: l) (b :: l') = true.
Proof. intros Hab Hl. simpl. now rewrite Hab. Qed.

Lemma all2_flat_map {A B C : Type} (f : A -> B -> bool)
    (g : C -> list A) (g' : C -> list B) l :
  (forall c, all2 f (g c) (g' c) = true) ->
  all2 f (flat_map g l) (flat_map g' l) = true.
Proof.
  intros Hg. induction l as [ | c tl IH]; simpl; [reflexivity | ].
  now apply all2_app.
Qed.

Lemma mirrored_line width lay a b a' b' :
  mirror_point width a = a' -> mirror_point width b = b' ->
  mirrored width (Entity (Line a b) lay) (Entity (Line a' b') lay) = true.
Proof.
  intros <- <-. unfold mirrored. simpl.
  rewrite !point_eqb_refl. now destruct lay.
Qed.

Lemma mirrored_line_swap width lay a b a' b' :
  mirror_point width a = b' -> mirror_point width b = a' ->
  mirrored width (Entity (Line a b) lay) (Entity (Line a' b') lay) = true.
Proof.
  intros <- <-. unfold mirrored. simpl.
  rewrite !point_eqb_refl, orb_true_r. now destruct lay.
Qed.

Lemma mirrored_arc width lay c r a1 a2 c' a1' a2' :
  mirror_point width c = c' ->
  (mirror_angle a2 mod 360 = a1' mod 360)%Z ->
  (mirror_angle a1 mod 360 = a2' mod 360)%Z ->
  mirrored width (Entity (Arc c r a1 a2) lay) (Entity (Arc c' r a1' a2') lay)
  = true.
Proof.
  intros <- H1 H2. unfold mirrored. simpl.
  rewrite point_eqb_refl, Qc_eq_bool_refl, H1, H2, !Z.eqb_refl.
  now destruct lay.
Qed.

Lemma mirrored_circle width lay c r c' :
  mirror_point width c = c' ->
  mirrored width (Entity (Circle c r) lay) (Entity (Circle c' r) lay) = true.
Proof.
  intros <-. unfold mirrored. simpl.
  rewrite point_eqb_refl, Qc_eq_bool_refl. now destruct lay.
Qed.

Ltac mirror_point_eq :=
  unfold mirror_point; cbn [fst snd]; apply f_equal2; qc_arith.

(** Compares two written out lists of entities, one entity after the
    other. *)
Ltac mirrored_entity :=
  first
    [ solve [apply mirrored_line; mirror_point_eq]
    | solve [apply mirrored_line_swap; mirror_point_eq]
    | solve [apply mirrored_arc; [mirror_point_eq | reflexivity | reflexivity]]
    | solve [apply mirrored_circle; mirror_point_eq] ].

Ltac mirrored_entities :=
  repeat (apply all2_cons; [mirrored_entity | ]); reflexivity.

Section Mirror.

Variable w_inches : Qc.
Variable h_units : Z.
Variable mount : list Z.

Lemma corners_mirrored :
  all2 (mirrored (right w_inches)) (left_corners w_inches h_units)
       (right_corners w_inches h_units) = true.
Proof.
  unfold left_corners, right_corners, fascia_outline, add_line, add_arc.
  cbn [app]. mirrored_entities.
Qed.

Lemma plate_holes_mirrored :
  all2 (mirrored (right w_inches)) (plate_left_holes w_inches h_units mount [])
       (plate_right_holes w_inches h_units mount []) = true.
Proof.
  rewrite plate_left_holes_draws, plate_right_holes_draws.
  apply all2_app.
  - destruct (truthy mount); mirrored_entities.
  - apply all2_flat_map. intros pos.
    unfold plate_left_hole, plate_right_hole, add_line, add_circle.
    cbn [app]. mirrored_entities.
Qed.

Lemma rebates_mirrored y :
  all2 (mirrored (right w_inches))
       (rebates (left_rebate w_inches) (left + intomm (1/32)) y mount)
       (rebates (right_rebate w_inches) (right w_inches - intomm (1/32)) y mount)
  = true.
Proof.
  revert y. induction mount as [ | pos tl IH]; intros y; [reflexivity | ].
  cbn [rebates]. apply all2_app; [ | apply IH].
  unfold left_rebate, right_rebate, add_line, add_arc.
  cbn [app fst snd]. mirrored_entities.
Qed.

Lemma fascia_sides_mirrored :
  all2 (mirrored (right w_inches)) (fascia_left_side w_inches h_units mount [])
       (fascia_right_side w_inches h_units mount []) = true.
Proof.
  rewrite fascia_left_side_draws, fascia_right_side_draws. cbn [app].
  apply all2_app; [destruct (truthy mount); mirrored_entities | ].
  apply all2_app; [apply rebates_mirrored | mirrored_entities].
Qed.

End Mirror.

(** ** Small facts used below *)

Lemma fillet_is_not_pocket :
  Qc_eq_bool (intomm (1/32)) (intomm ((3/16) + (1/16))) = false.
Proof. vm_compute. reflexivity. Qed.

Lemma in_optional_line {P : primitive -> Prop} (b : bool) (v p : primitive) :
  P v -> In p (if b then [v] else []) -> P p.
Proof.
  intros Hv. destruct b; simpl; [ | contradiction].
  intros [<- | []]. exact Hv.
Qed.

(** * The claims *)



(** C2 (as stated).  With the parameters written in the script, no hole of
    the plate is within 1 mm of y = 18.256 mm, and none within 0.9 mm of
    y = 70.4625 mm. *)
Lemma default_holes_not_at_stated_heights :
  existsb (hole_near (Q2Qc 18.256) 1)
          (circles plate (make_panel default_w_inches default_h_units
                            default_left_mount default_right_mount)) = false
  /\ existsb (hole_near (Q2Qc 70.4625) (Q2Qc 0.9))
             (circles plate (make_panel default_w_inches default_h_units
                               default_left_mount default_right_mount))
     = false.
Proof. split; vm_compute; reflexivity. Qed.

(** C2 (amended).  With width 5.75 in, height 9 units and fasteners at 1
    and 7 on both sides, the plate outline is the rectangle from (0, 0) to
    (146.05, 85.725) mm, the fascia has exactly two rebate pockets per
    side, and each side has two plate holes of radius 2 mm, at
    y = 14.2875 mm and y = 71.4375 mm. *)
Theorem default_panel :
  let msp := make_panel default_w_inches default_h_units
               default_left_mount default_right_mount in
  boundary plate msp
  = [Line (0, 0) (Q2Qc 146.05, 0);
     Line (Q2Qc 146.05, 0) (Q2Qc 146.05, Q2Qc 85.725);
     Line (Q2Qc 146.05, Q2Qc 85.725) (0, Q2Qc 85.725);
     Line (0, Q2Qc 85.725) (0, 0)]
  /\ length (pockets (intomm (3/16)) msp) = 2%nat
  /\ length (pockets (right default_w_inches - intomm (3/16)) msp) = 2%nat
  /\ circles plate msp
     = [Circle (Q2Qc 4.7625, Q2Qc 14.2875) 2;
        Circle (Q2Qc 4.7625, Q2Qc 71.4375) 2;
        Circle (Q2Qc 141.2875, Q2Qc 14.2875) 2;
        Circle (Q2Qc 141.2875, Q2Qc 71.4375) 2].
Proof.
  intros msp. subst msp. unfold boundary, circles.
  rewrite on_layer_plate. cbn [app map filter is_circle negb default_left_mount default_right_mount].
  split; [ | split; [ | split]].
  - repeat (f_equal; try (apply Qc_is_canon; reflexivity)).
  - vm_compute; reflexivity.
  - vm_compute; reflexivity.
  - repeat (f_equal; try (apply Qc_is_canon; reflexivity)).
Qed.

(** C3 (as stated).  With the parameters written in the script, the layer
    [plate_construction] has no line between the left edge of the plate
    and the midline at the height of fastener 1, in either direction. *)
Lemma no_construction_line_from_the_edge :
  let msp := make_panel default_w_inches default_h_units
               default_left_mount default_right_mount in
  ~ In (Line (left, fastener_y 1)
             (right default_w_inches / 2, fastener_y 1))
       (on_layer plate_construction msp)
  /\ ~ In (Line (right default_w_inches / 2, fastener_y 1)
                (left, fastener_y 1))
          (on_layer plate_construction msp).
Proof.
  intros msp. subst msp. rewrite on_layer_plate_construction.
  split; intros H; simpl in H;
    repeat (destruct H as [H | H]; [ | try contradiction ]);
    apply (f_equal (fun p => match p with
                             | Line a b => (this (fst a), this (fst b))
                             | _ => (0, 0)%Q
                             end)) in H;
    vm_compute in H; discriminate.
Qed.

(** C3 (amended).  The circles of layer [plate] are, in this order, one
    per position of [left_mount] and one per position of [right_mount],
    of radius 2 mm, centred at x = 3/16 in resp. x = width - 3/16 in and at
    y = (pos * 3/8 + 3/16) in, in millimetres; and layer [plate_construction]
    has, besides the vertical line of each side with fasteners, one
    horizontal line per position, from 10 mm outside the edge of that side
    to the midline of the panel. *)
Theorem plate_holes (w_inches : Qc) (h_units : Z)
    (left_mount right_mount : list Z) :
  let msp := make_panel w_inches h_units left_mount right_mount in
  circles plate msp
  = map (fun pos => Circle (intomm (3/16), fastener_y pos) 2) left_mount
    ++ map (fun pos => Circle (right w_inches - intomm (3/16),
                               fastener_y pos) 2) right_mount
  /\ on_layer plate_construction msp
     = (if truthy left_mount
        then [Line (intomm (3/16), Z2Qc (-10))
                   (intomm (3/16), top h_units + 10)]
        else [])
       ++ map (fun pos => Line (Z2Qc (-10), fastener_y pos)
                               (right w_inches / 2, fastener_y pos))
              left_mount
       ++ (if truthy right_mount
           then [Line (right w_inches - intomm (3/16), Z2Qc (-10))
                      (right w_inches - intomm (3/16), top h_units + 10)]
           else [])
       ++ map (fun pos => Line (right w_inches / 2, fastener_y pos)
                               (right w_inches + 10, fastener_y pos))
              right_mount.
Proof.
  intros msp. subst msp. split.
  - unfold circles. rewrite on_layer_plate, !filter_app.
    now rewrite !filter_map_all by reflexivity.
  - rewrite on_layer_plate_construction.
    now rewrite left_minus_10, bottom_minus_10.
Qed.

(** C4.  When both sides have the same fastener positions, what is drawn
    for the right side (its corners, its plate holes, its fascia boundary
    and their construction lines) is, entity by entity and on the same
    layer, the image under x -> width - x of what is drawn for the left
    side: the same segment, the same circle, the arc between the mirrored
    angles. *)
Theorem sides_are_mirrored (w_inches : Qc) (h_units : Z)
    (left_mount right_mount : list Z) :
  left_mount = right_mount ->
  all2 (mirrored (right w_inches)) (left_side w_inches h_units left_mount)
       (right_side w_inches h_units right_mount) = true.
Proof.
  intros <-. unfold left_side, right_side.
  apply all2_app; [apply corners_mirrored | ].
  apply all2_app; [apply plate_holes_mirrored | apply fascia_sides_mirrored].
Qed.

Lemma sides_are_mirrored_default :
  default_left_mount = default_right_mount
  /\ all2 (mirrored (right default_w_inches))
          (left_side default_w_inches default_h_units default_left_mount)
          (right_side default_w_inches default_h_units default_right_mount)
     = true.
Proof.
  split; [reflexivity | ].
  apply (sides_are_mirrored default_w_inches default_h_units
           default_left_mount default_right_mount).
  reflexivity.
Defined.

(** C5.  Without fasteners the layer [fascia] holds the four corner arcs,
    quarter circles of radius 1/32 in, and the four straight edges, 1/32 in
    inside the plate, and nothing else; the plate has no hole. *)
Theorem plain_fascia (w_inches : Qc) (h_units : Z) :
  let msp := make_panel w_inches h_units [] [] in
  let right := right w_inches in
  let top := top h_units in
  on_layer fascia msp
  = [Arc (intomm (2/32), intomm (2/32)) (intomm (1/32)) 180 270;
     Line (left + intomm (2/32), bottom + intomm (1/32))
          (right - intomm (2/32), bottom + intomm (1/32));
     Arc (right - intomm (2/32), intomm (2/32)) (intomm (1/32)) 270 0;
     Arc (intomm (2/32), top - intomm (2/32)) (intomm (1/32)) 90 180;
     Line (left + intomm (2/32), top - intomm (1/32))
          (right - intomm (2/32), top - intomm (1/32));
     Arc (right - intomm (2/32), top - intomm (2/32)) (intomm (1/32)) 0 90;
     Line (left + intomm (1/32), intomm (2/32))
          (intomm (1/32), top - intomm (2/32));
     Line (right - intomm (1/32), intomm (2/32))
          (right - intomm (1/32), top - intomm (2/32))]
  /\ length (filter is_arc (on_layer fascia msp)) = 4%nat
  /\ forallb quarter (filter is_arc (on_layer fascia msp)) = true
  /\ length (filter is_line (on_layer fascia msp)) = 4%nat
  /\ pockets (intomm (3/16)) msp = []
  /\ pockets (right - intomm (3/16)) msp = []
  /\ circles plate msp = [].
Proof.
  intros msp right top.
  assert (E : on_layer fascia msp
     = [Arc (intomm (2/32), intomm (2/32)) (intomm (1/32)) 180 270;
     Line (left + intomm (2/32), bottom + intomm (1/32))
          (right - intomm (2/32), bottom + intomm (1/32));
     Arc (right - intomm (2/32), intomm (2/32)) (intomm (1/32)) 270 0;
     Arc (intomm (2/32), top - intomm (2/32)) (intomm (1/32)) 90 180;
     Line (left + intomm (2/32), top - intomm (1/32))
          (right - intomm (2/32), top - intomm (1/32));
     Arc (right - intomm (2/32), top - intomm (2/32)) (intomm (1/32)) 0 90;
     Line (left + intomm (1/32), intomm (2/32))
          (intomm (1/32), top - intomm (2/32));
     Line (right - intomm (1/32), intomm (2/32))
          (right - intomm (1/32), top - intomm (2/32))]) by reflexivity.
  split; [exact E | ].
  unfold pockets, circles. rewrite E.
  subst msp. rewrite on_layer_plate.
  repeat (split; [reflexivity | ]).
  cbn [filter]. rewrite !fillet_is_not_pocket, !andb_false_r.
  repeat (split; [reflexivity | ]). reflexivity.
Qed.





(** C8.  What the script adds to a modelspace does not depend on what the
    modelspace holds: any two runs on the same parameters add the same
    entities in the same order, those of [make_panel]. *)
Theorem runs_agree (w_inches : Qc) (h_units : Z)
    (left_mount right_mount : list Z) (msp1 msp2 : modelspace) :
  exists added,
    script w_inches h_units left_mount right_mount msp1 = msp1 ++ added
    /\ script w_inches h_units left_mount right_mount msp2 = msp2 ++ added
    /\ run w_inches h_units left_mount right_mount = Saved added.
Proof.
  exists (make_panel w_inches h_units left_mount right_mount).
  now rewrite !script_adds.
Qed.

(** C9.  Every entity on a construction layer is a line of one of these
    shapes: vertical, from y = -10 to y = height_mm + 10; horizontal over
    the full width, from x = -10 to x = width_mm + 10; or horizontal at
    the height of a fastener, between the midline of the panel and 10 mm
    outside the edge of the fastener's side.  Each fastener has such a
    line on [plate_construction] and on [fascia_construction]. *)
Theorem construction_lines_overhang (w_inches : Qc) (h_units : Z)
    (left_mount right_mount : list Z) :
  let msp := make_panel w_inches h_units left_mount right_mount in
  Forall (fun e => construction_shape w_inches h_units left_mount right_mount
                     (geometry e))
         (construction_lines msp)
  /\ (forall pos lay,
         In pos left_mount ->
         lay = plate_construction \/ lay = fascia_construction ->
         In (Entity (Line (Z2Qc (-10), fastener_y pos)
                          (right w_inches / 2, fastener_y pos)) lay) msp)
  /\ (forall pos lay,
         In pos right_mount ->
         lay = plate_construction \/ lay = fascia_construction ->
         In (Entity (Line (right w_inches / 2, fastener_y pos)
                          (right w_inches + 10, fastener_y pos)) lay) msp).
Proof.
  intros msp. subst msp.
  pose proof (on_layer_plate_construction w_inches h_units left_mount
                right_mount) as Hp.
  pose proof (on_layer_fascia_construction w_inches h_units left_mount
                right_mount) as Hf.
  pose proof (on_layer_decal_construction w_inches h_units left_mount
                right_mount) as Hd.
  rewrite left_minus_10, bottom_minus_10 in Hp, Hf.
  rewrite left_minus_10 in Hd.
  assert (Hl : forall p,
             In p (map (fun pos => Line (Z2Qc (-10), fastener_y pos)
                                        (right w_inches / 2, fastener_y pos))
                       left_mount) ->
             construction_shape w_inches h_units left_mount right_mount p).
  { intros p Hin. apply in_map_iff in Hin as [pos [<- Hpos]].
    apply left_fastener. assumption. }
  assert (Hr : forall p,
             In p (map (fun pos => Line (right w_inches / 2, fastener_y pos)
                                        (right w_inches + 10, fastener_y pos))
                       right_mount) ->
             construction_shape w_inches h_units left_mount right_mount p).
  { intros p Hin. apply in_map_iff in Hin as [pos [<- Hpos]].
    apply right_fastener. assumption. }
  split; [ | split].
  - apply Forall_forall. intros [g lay] He.
    apply filter_In in He as [He Hc]. simpl in Hc |- *.
    apply in_on_layer in He.
    destruct lay; try discriminate Hc.
    + rewrite Hp in He.
      repeat (apply in_app_or in He as [He | He]); auto;
        apply (in_optional_line _ _ _ (full_height _ _ _ _ _) He).
    + rewrite Hf in He.
      repeat (apply in_app_or in He as [He | He]); auto.
      * destruct He as [<- | [<- | []]];
          [apply full_height | apply full_width].
      * apply (in_optional_line _ _ _ (full_height _ _ _ _ _) He).
      * apply (in_optional_line _ _ _ (full_height _ _ _ _ _) He).
    + rewrite Hd in He. destruct He as [<- | []]. apply full_width.
  - intros pos lay Hpos [-> | ->]; apply in_on_layer;
      [rewrite Hp | rewrite Hf; apply in_or_app; right];
      apply in_or_app; right; apply in_or_app; left;
      apply in_map_iff; now exists pos.
  - intros pos lay Hpos [-> | ->]; apply in_on_layer;
      [rewrite Hp | rewrite Hf];
      repeat (apply in_or_app; right);
      apply in_map_iff; now exists pos.
Qed.

(** C10.  Nothing is ever added on layer [decal]; layer
    [decal_construction] holds exactly one line, horizontal, at
    y = height_mm - 13/64 in, from x = -10 to x = width_mm + 10. *)
Theorem decal_layers (w_inches : Qc) (h_units : Z)
    (left_mount right_mount : list Z) :
  let msp := make_panel w_inches h_units left_mount right_mount in
  on_layer decal msp = []
  /\ on_layer decal_construction msp
     = [Line (Z2Qc (-10), top h_units - intomm (13/64))
             (right w_inches + 10, top h_units - intomm (13/64))].
Proof.
  intros msp. subst msp. split.
  - apply on_layer_decal.
  - now rewrite on_layer_decal_construction, left_minus_10.
Qed.
